(** * Orchard placeholder icon generator

    A shallow embedding of [scripts/create_placeholder_icons.py] and the
    properties of its two functions, [create_placeholder_icon] and [main].

    The script talks to three things outside itself: the Python import
    system, the Pillow imaging library and the file system.  Each is
    modelled by what the script can observe of it:

    - the installation ([Env]) is read-only: whether Pillow can be
      imported, where the script lives, which of the probed font files
      exist, what [ImageFont.truetype] does with them and what
      [font.getbbox] measures;
    - the [World] is what a run changes: the output tree (directories and
      files, keyed by the literal path string, with no resolution of [..]
      or links) and the lines written to standard output;
    - an image is the record of how it was created and the drawing calls
      applied to it, in order; rasterisation is Pillow's business.

    Only the calls the script guards can fail in the model: the import of
    Pillow, [ImageFont.truetype], and the two calls that touch the output
    tree.  The drawing calls return normally, so the statements about a
    drawn icon are statements about the calls that return.

    Python integers are [Z]; [//] is floor division, which is [Z.div]. *)

From Stdlib Require Import ZArith Lia Ascii String.
From stdpp Require Import gmap strings list fin_maps pretty.

Local Open Scope Z_scope.

Notation "a // b" := (Z.div a b) (at level 40, left associativity).

(** ** Exceptions *)

(** The exception classes that matter to the script, with the part of
    Python's class hierarchy above them. *)
Inductive exn : Set :=
  | OSError
  | FileNotFoundError
  | FileExistsError
  | IsADirectoryError
  | NotADirectoryError
  | ImportError
  | ModuleNotFoundError
  | ValueError
  | MemoryError.

(** [exn_isa e c]: an exception of class [e] is an instance of class [c]. *)
Definition exn_isa (e c : exn) : bool :=
  match c, e with
  | OSError, (OSError | FileNotFoundError | FileExistsError
             | IsADirectoryError | NotADirectoryError) => true
  | ImportError, (ImportError | ModuleNotFoundError) => true
  | FileNotFoundError, FileNotFoundError => true
  | FileExistsError, FileExistsError => true
  | IsADirectoryError, IsADirectoryError => true
  | NotADirectoryError, NotADirectoryError => true
  | ModuleNotFoundError, ModuleNotFoundError => true
  | ValueError, ValueError => true
  | MemoryError, MemoryError => true
  | _, _ => false
  end.

(** In Python 3 [IOError] is another name of [OSError]. *)
Definition IOError : exn := OSError.

(** How a computation ends: with a value, with a raised exception, or
    with [SystemExit] carrying an exit code. *)
Inductive result (A : Type) : Type :=
  | Ok (a : A)
  | Raise (e : exn)
  | SysExit (code : Z).
Arguments Ok {A} a.
Arguments Raise {A} e.
Arguments SysExit {A} code.

(** Exit status of the interpreter for a script that ended with [r]. *)
Definition exit_status {A} (r : result A) : Z :=
  match r with
  | Ok _ => 0
  | Raise _ => 1
  | SysExit code => code
  end.

(** ** Images *)

Definition RGBA : Type := Z * Z * Z * Z.
Definition Box : Type := Z * Z * Z * Z.

Inductive Font : Set :=
  | TrueType (path : string) (size : Z)
  | DefaultFont.

Inductive DrawOp : Type :=
  | DrawRectangle (box : Box) (outline : RGBA) (width : Z)
  | DrawText (xy : Z * Z) (text : string) (fill : RGBA) (font : Font).

Record Image : Type := mkImage {
  im_mode : string;
  im_size : Z * Z;
  im_fill : RGBA;
  im_ops : list DrawOp
}.

Definition Image_new (mode : string) (size : Z * Z) (color : RGBA) : Image :=
  mkImage mode size color [].

Definition draw_op (img : Image) (op : DrawOp) : Image :=
  mkImage (im_mode img) (im_size img) (im_fill img) (im_ops img ++ [op]).

Definition draw_rectangle (img : Image) (box : Box) (outline : RGBA)
    (width : Z) : Image :=
  draw_op img (DrawRectangle box outline width).

Definition draw_text (img : Image) (xy : Z * Z) (text : string) (fill : RGBA)
    (font : Font) : Image :=
  draw_op img (DrawText xy text fill font).

(** ** Paths (posixpath) *)

Definition is_sep (c : ascii) : bool := bool_decide (c = "/"%char).

Fixpoint ends_with_sep (s : string) : bool :=
  match s with
  | EmptyString => false
  | String c EmptyString => is_sep c
  | String _ r => ends_with_sep r
  end.

Definition starts_with_sep (s : string) : bool :=
  match s with
  | String c _ => is_sep c
  | EmptyString => false
  end.

Definition is_empty (s : string) : bool :=
  match s with EmptyString => true | _ => false end.

(** One round of the loop of [posixpath.join]. *)
Definition join_step (path b : string) : string :=
  if starts_with_sep b then b
  else if is_empty path || ends_with_sep path then path +:+ b
  else path +:+ "/" +:+ b.

Definition os_path_join (a : string) (p : list string) : string :=
  fold_left join_step p a.

(** [head_upto_sep p] is [p[:i]] for [i = p.rfind('/') + 1]. *)
Fixpoint head_upto_sep (p : string) : string :=
  match p with
  | EmptyString => EmptyString
  | String c r =>
      match head_upto_sep r with
      | EmptyString => if is_sep c then String c EmptyString else EmptyString
      | h => String c h
      end
  end.

Fixpoint all_sep (s : string) : bool :=
  match s with
  | EmptyString => true
  | String c r => is_sep c && all_sep r
  end.

Fixpoint rstrip_sep (s : string) : string :=
  match s with
  | EmptyString => EmptyString
  | String c r =>
      match rstrip_sep r with
      | EmptyString => if is_sep c then EmptyString else String c EmptyString
      | r' => String c r'
      end
  end.

Definition os_path_dirname (p : string) : string :=
  let head := head_upto_sep p in
  if negb (is_empty head) && negb (all_sep head) then rstrip_sep head
  else head.

(** The proper ancestors of a path: every non-empty prefix that stops
    right before a separator and does not itself end in one. *)
Fixpoint ancestors_from (pre s : string) : list string :=
  match s with
  | EmptyString => []
  | String c r =>
      (if is_sep c && negb (is_empty pre) && negb (ends_with_sep pre)
       then [pre] else [])
      ++ ancestors_from (pre +:+ String c EmptyString) r
  end.

Definition ancestors (p : string) : list string := ancestors_from "" p.

(** ** The world a run changes *)

Record World : Type := mkWorld {
  dirs : gset string;
  files : gmap string Image;
  stdout : list string
}.

(** ** The installation a run reads *)

Record Env : Type := mkEnv {
  (** can [PIL] be imported? *)
  pil_installed : bool;
  (** [os.path.abspath(__file__)] *)
  script_abspath : string;
  (** [os.path.exists] on a font location *)
  font_exists : string -> bool;
  (** [ImageFont.truetype(path, size)]: [None] when it returns the font,
      [Some e] when it raises [e] *)
  truetype_raises : string -> Z -> option exn;
  (** [font.getbbox(text)] with the default anchor: left, top, right,
      bottom of the glyphs relative to the drawing position *)
  getbbox : string -> Font -> Box
}.

(** ** Computations *)

(** A computation reads and changes the world and ends in a [result]. *)
Definition M (A : Type) : Type := World -> result A * World.

Definition ret {A} (a : A) : M A := fun w => (Ok a, w).

Definition bind {A B} (c : M A) (k : A -> M B) : M B :=
  fun w =>
    match c w with
    | (Ok a, w') => k a w'
    | (Raise e, w') => (Raise e, w')
    | (SysExit code, w') => (SysExit code, w')
    end.

Notation "'let*' x ':=' c 'in' k" := (bind c (fun x => k))
  (at level 10, x name, c at level 100, k at level 200).
Notation "c ;; k" := (bind c (fun _ => k))
  (at level 100, k at level 200, right associativity).

Definition raise {A} (e : exn) : M A := fun w => (Raise e, w).

(** [sys.exit(code)] *)
Definition sys_exit {A} (code : Z) : M A := fun w => (SysExit code, w).

(** [try: body except <classes>: handler], where [handles e] tells whether
    [e] is an instance of one of the classes.  [SystemExit] is not an
    [Exception] and passes through. *)
Definition try_except {A} (body : M A) (handles : exn -> bool)
    (handler : M A) : M A :=
  fun w =>
    match body w with
    | (Raise e, w') => if handles e then handler w' else (Raise e, w')
    | r => r
    end.

(** [print(line)] *)
Definition print (line : string) : M unit :=
  fun w => (Ok tt, mkWorld (dirs w) (files w) (stdout w ++ [line])).

(** [for x in xs: body(x)] *)
Fixpoint for_each {A} (xs : list A) (body : A -> M unit) : M unit :=
  match xs with
  | [] => ret tt
  | x :: rest => body x ;; for_each rest body
  end.

(** ** The file system calls *)

(** [os.makedirs(name, exist_ok=exist_ok)].  An existing directory is
    accepted only with [exist_ok]; a regular file in the way is an error;
    otherwise the directory and its missing ancestors appear. *)
Definition os_makedirs (name : string) (exist_ok : bool) : M unit :=
  fun w =>
    if bool_decide (name ∈ dirs w) then
      if exist_ok then (Ok tt, w) else (Raise FileExistsError, w)
    else if bool_decide (is_Some (files w !! name)) then
      (Raise FileExistsError, w)
    else if existsb (fun a => bool_decide (is_Some (files w !! a)))
              (ancestors name) then
      (Raise NotADirectoryError, w)
    else
      (Ok tt, mkWorld (dirs w ∪ list_to_set (ancestors name) ∪ {[name]})
                      (files w) (stdout w)).

(** [img.save(path, 'PNG')]: the file is created or replaced; the
    directory it goes into must exist and the path must not be a
    directory. *)
Definition img_save (img : Image) (path : string) : M unit :=
  fun w =>
    if bool_decide (path ∈ dirs w) then (Raise IsADirectoryError, w)
    else if bool_decide (os_path_dirname path ∈ dirs w) then
      (Ok tt, mkWorld (dirs w) (<[path := img]> (files w)) (stdout w))
    else (Raise FileNotFoundError, w).

Definition box_left (b : Box) : Z := let '(l, _, _, _) := b in l.
Definition box_top (b : Box) : Z := let '(_, t, _, _) := b in t.
Definition box_right (b : Box) : Z := let '(_, _, r, _) := b in r.
Definition box_bottom (b : Box) : Z := let '(_, _, _, b') := b in b'.

Section Script.

Variable env : Env.

(** ** The Pillow calls *)

(** [import PIL] and [from PIL import ...] *)
Definition import_PIL : M unit :=
  fun w =>
    if pil_installed env then (Ok tt, w) else (Raise ModuleNotFoundError, w).

(** [ImageFont.truetype(path, size)] *)
Definition ImageFont_truetype (path : string) (size : Z) : M Font :=
  fun w =>
    match truetype_raises env path size with
    | None => (Ok (TrueType path size), w)
    | Some e => (Raise e, w)
    end.

(** [ImageFont.load_default()] *)
Definition ImageFont_load_default : M Font := ret DefaultFont.

(** [draw.textbbox(xy, text, font=font)]: the box [font.getbbox(text)]
    moved to [xy]; it is where [draw.text(xy, text, font=font)] puts the
    glyphs. *)
Definition textbbox (xy : Z * Z) (text : string) (font : Font) : Box :=
  let b := getbbox env text font in
  (box_left b + fst xy, box_top b + snd xy,
   box_right b + fst xy, box_bottom b + snd xy).

(** ** [create_placeholder_icon] *)

(** Lines 34-39. *)
Definition font_size_of (size : Z) : Z :=
  if size >=? 128 then size // 8
  else if size >=? 64 then size // 6
  else size // 4.

(** Lines 43-47. *)
Definition font_paths : list string :=
  [ "/System/Library/Fonts/Helvetica.ttc";
    "/System/Library/Fonts/Arial.ttf";
    "/usr/share/fonts/truetype/liberation/LiberationSans-Regular.ttf" ]%string.

(** Lines 49-53: the loop leaves at the first location that exists,
    whatever loading from it does. *)
Fixpoint find_font (paths : list string) (font_size : Z) : M (option Font) :=
  match paths with
  | [] => ret None
  | font_path :: rest =>
      if font_exists env font_path then
        let* font := ImageFont_truetype font_path font_size in
        ret (Some font)
      else find_font rest font_size
  end.

(** Lines 32-62: the two nested [try] statements. *)
Definition load_font (size : Z) : M Font :=
  try_except
    (let font_size := font_size_of size in
     try_except
       (let* font := find_font font_paths font_size in
        match font with
        | None => ImageFont_load_default
        | Some f => ret f
        end)
       (fun e => exn_isa e OSError || exn_isa e IOError)
       ImageFont_load_default)
    (fun e => exn_isa e ImportError)
    ImageFont_load_default.

(** Lines 65-68. *)
Definition label_text (size : Z) : string :=
  if size >=? 64 then "OR" else "O".

Definition create_placeholder_icon (size : Z) (output_path : string) : M unit :=
  let img := Image_new "RGBA" (size, size) (52, 120, 246, 255) in
  let border_width := Z.max 1 (size // 64) in
  let img := draw_rectangle img (0, 0, size - 1, size - 1)
               (30, 90, 200, 255) border_width in
  let* font := load_font size in
  let text := label_text size in
  let bbox := textbbox (0, 0) text font in
  let text_width := box_right bbox - box_left bbox in
  let text_height := box_bottom bbox - box_top bbox in
  let x := (size - text_width) // 2 in
  let y := (size - text_height) // 2 in
  let shadow_offset := Z.max 1 (size // 128) in
  let img :=
    if shadow_offset >? 0 then
      draw_text img (x + shadow_offset, y + shadow_offset) text
        (0, 0, 0, 100) font
    else img in
  let img := draw_text img (x, y) text (255, 255, 255, 255) font in
  img_save img output_path ;;
  print ("Created " +:+ pretty size +:+ "x" +:+ pretty size +:+ " icon: "
         +:+ output_path).

(** ** [main] *)

(** Lines 100-108. *)
Definition icon_sizes : list (Z * string) :=
  [ (16, "icon_16x16.png");
    (32, "icon_32x32.png");
    (64, "icon_64x64.png");
    (128, "icon_128x128.png");
    (256, "icon_256x256.png");
    (512, "icon_512x512.png");
    (1024, "icon_1024x1024.png") ]%string.

(** Lines 111-112. *)
Definition app_icon_dir : string :=
  let script_dir := os_path_dirname (script_abspath env) in
  os_path_join script_dir
    [ ".."; "Orchard"; "Assets.xcassets"; "AppIcon.appiconset" ]%string.

Definition main : M unit :=
  try_except import_PIL (fun e => exn_isa e ImportError)
    (print "Error: Pillow library is required." ;;
     print "Install it with: pip install Pillow" ;;
     sys_exit 1) ;;
  os_makedirs app_icon_dir true ;;
  print "Generating placeholder app icons for Orchard..." ;;
  print ("Output directory: " +:+ app_icon_dir) ;;
  print "" ;;
  for_each icon_sizes (fun '(size, filename) =>
    let output_path := os_path_join app_icon_dir [filename] in
    create_placeholder_icon size output_path) ;;
  print "" ;;
  print "✅ Placeholder icons generated successfully!" ;;
  print "" ;;
  print "Your app should now build without icon errors." ;;
  print "To create proper app icons, see the ICON_GUIDE.md file.".

(** ** The script as the interpreter runs it *)

(** Line 17 is executed when the module is loaded, before [main] exists;
    lines 132-133 then call [main]. *)
Definition script : M unit :=
  import_PIL ;;
  main.

End Script.

(** A small installation and an empty output tree to run things on. *)
Definition demo_env (pil : bool) (fonts : string -> bool)
    (tt_raises : string -> Z -> option exn) (bb : string -> Font -> Box) : Env :=
  mkEnv pil "/repo/scripts/create_placeholder_icons.py" fonts tt_raises bb.

Definition empty_world : World := mkWorld ∅ ∅ [].

(** * Paths *)

Section PathFacts.

Implicit Types a b d f s : string.

Lemma app_String c a b : String c a +:+ b = String c (a +:+ b).
Proof. reflexivity. Qed.

Lemma app_Empty b : "" +:+ b = b.
Proof. reflexivity. Qed.

Lemma app_assoc_sep a b : (a +:+ "/") +:+ b = a +:+ "/" +:+ b.
Proof.
  induction a as [|c a IH]; [reflexivity|].
  rewrite !(app_String c). by rewrite IH.
Qed.

Lemma is_empty_app a b : is_empty (a +:+ b) = is_empty a && is_empty b.
Proof. destruct a; reflexivity. Qed.

Lemma ends_with_sep_app a b :
  is_empty b = false -> ends_with_sep (a +:+ b) = ends_with_sep b.
Proof.
  intros Hb. induction a as [|c a IH]; [reflexivity|].
  rewrite app_String. cbn [ends_with_sep]. rewrite IH.
  destruct (a +:+ b) eqn:E; [|reflexivity].
  apply (f_equal is_empty) in E. rewrite is_empty_app, Hb in E.
  destruct (is_empty a); discriminate.
Qed.

(** A name without a separator, such as a file name. *)
Fixpoint has_sep s : bool :=
  match s with
  | EmptyString => false
  | String c r => is_sep c || has_sep r
  end.

Lemma head_upto_sep_plain f : has_sep f = false -> head_upto_sep f = "".
Proof.
  induction f as [|c f IH]; [reflexivity|]. cbn [has_sep head_upto_sep].
  intros [Hc Hf]%orb_false_elim. rewrite (IH Hf), Hc. reflexivity.
Qed.

Lemma head_upto_sep_app_sep a f :
  has_sep f = false -> head_upto_sep (a +:+ "/" +:+ f) = a +:+ "/".
Proof.
  intros Hf. induction a as [|c a IH].
  - rewrite !app_Empty, app_String. cbn [head_upto_sep].
    rewrite app_Empty, (head_upto_sep_plain f Hf). reflexivity.
  - rewrite (app_String c a). cbn [head_upto_sep]. rewrite IH.
    destruct a; reflexivity.
Qed.

Lemma rstrip_sep_fixed d : ends_with_sep d = false -> rstrip_sep d = d.
Proof.
  induction d as [|c d IH]; [reflexivity|]. cbn [ends_with_sep rstrip_sep].
  destruct d as [|c' d].
  - intros ->. reflexivity.
  - intros H. rewrite (IH H). reflexivity.
Qed.

Lemma rstrip_sep_app_sep d : rstrip_sep (d +:+ "/") = rstrip_sep d.
Proof.
  induction d as [|c d IH]; [reflexivity|].
  rewrite app_String. cbn [rstrip_sep]. rewrite IH. reflexivity.
Qed.

Lemma all_sep_app a b : all_sep (a +:+ b) = all_sep a && all_sep b.
Proof.
  induction a as [|c a IH]; [reflexivity|].
  rewrite app_String. cbn [all_sep]. rewrite IH, andb_assoc. reflexivity.
Qed.

Lemma all_sep_ends d :
  is_empty d = false -> ends_with_sep d = false -> all_sep d = false.
Proof.
  induction d as [|c d IH]; [discriminate|]. intros _.
  cbn [ends_with_sep all_sep]. destruct d as [|c' d].
  - intros ->. reflexivity.
  - intros H. rewrite (IH eq_refl H). apply andb_false_r.
Qed.

(** Joining a plain file name to a directory name that does not end in a
    separator puts one separator between them. *)
Lemma os_path_join_file d f :
  is_empty d = false -> ends_with_sep d = false -> has_sep f = false ->
  os_path_join d [f] = d +:+ "/" +:+ f.
Proof.
  intros Hd He Hf. unfold os_path_join, join_step. cbn [fold_left].
  assert (starts_with_sep f = false) as ->.
  { destruct f; [reflexivity|]. cbn in Hf |- *.
    by apply orb_false_elim in Hf as [-> _]. }
  rewrite Hd, He. reflexivity.
Qed.

(** ... and [os.path.dirname] gives the directory name back. *)
Lemma os_path_dirname_join_file d f :
  is_empty d = false -> ends_with_sep d = false -> has_sep f = false ->
  os_path_dirname (os_path_join d [f]) = d.
Proof.
  intros Hd He Hf. rewrite os_path_join_file by assumption.
  unfold os_path_dirname. rewrite head_upto_sep_app_sep by assumption.
  rewrite is_empty_app, all_sep_app, (all_sep_ends d Hd He), Hd.
  cbn [negb andb]. rewrite rstrip_sep_app_sep. by apply rstrip_sep_fixed.
Qed.

Lemma os_path_join_file_inj d f1 f2 :
  is_empty d = false -> ends_with_sep d = false ->
  has_sep f1 = false -> has_sep f2 = false ->
  os_path_join d [f1] = os_path_join d [f2] -> f1 = f2.
Proof.
  intros Hd He H1 H2. rewrite !os_path_join_file by assumption.
  intros H. by do 2 apply (inj (String.app _)) in H.
Qed.

End PathFacts.

(** * What the functions compute *)

Section Facts.

Variable env : Env.

(** ** The icon directory *)

Lemma join_step_plain p b :
  starts_with_sep b = false -> exists pre, join_step p b = pre +:+ b.
Proof.
  intros Hb. unfold join_step. rewrite Hb.
  destruct (is_empty p || ends_with_sep p); [by exists p|].
  exists (p +:+ "/"). by rewrite app_assoc_sep.
Qed.

Lemma app_icon_dir_suffix :
  exists pre, app_icon_dir env = pre +:+ "AppIcon.appiconset".
Proof.
  unfold app_icon_dir, os_path_join. cbn [fold_left].
  by apply join_step_plain.
Qed.

Lemma app_icon_dir_nonempty : is_empty (app_icon_dir env) = false.
Proof.
  destruct app_icon_dir_suffix as [pre ->]. rewrite is_empty_app.
  apply andb_false_r.
Qed.

Lemma app_icon_dir_no_trailing_sep : ends_with_sep (app_icon_dir env) = false.
Proof.
  destruct app_icon_dir_suffix as [pre ->]. by rewrite ends_with_sep_app.
Qed.

(** Each icon lands directly in the icon directory. *)
Lemma icon_path_parent f :
  has_sep f = false ->
  os_path_dirname (os_path_join (app_icon_dir env) [f]) = app_icon_dir env.
Proof.
  apply os_path_dirname_join_file;
    [apply app_icon_dir_nonempty | apply app_icon_dir_no_trailing_sep].
Qed.

(** ** Font selection *)

(** The outcome of lines 32-62, read off the installation. *)
Definition load_font_result (size : Z) : result Font :=
  match find (font_exists env) font_paths with
  | None => Ok DefaultFont
  | Some p =>
      match truetype_raises env p (font_size_of size) with
      | None => Ok (TrueType p (font_size_of size))
      | Some e =>
          if exn_isa e OSError || exn_isa e ImportError then Ok DefaultFont
          else Raise e
      end
  end.

Lemma find_font_eq paths font_size w :
  find_font env paths font_size w =
    match find (font_exists env) paths with
    | None => (Ok None, w)
    | Some p =>
        match truetype_raises env p font_size with
        | None => (Ok (Some (TrueType p font_size)), w)
        | Some e => (Raise e, w)
        end
    end.
Proof.
  induction paths as [|p paths IH]; [reflexivity|].
  cbn [find_font find]. destruct (font_exists env p); [|exact IH].
  unfold bind, ImageFont_truetype, ret.
  destruct (truetype_raises env p font_size); reflexivity.
Qed.

Lemma load_font_eq size w :
  load_font env size w = (load_font_result size, w).
Proof.
  unfold load_font, load_font_result, try_except, bind.
  rewrite find_font_eq.
  destruct (find (font_exists env) font_paths) as [p|]; [|reflexivity].
  destruct (truetype_raises env p (font_size_of size)) as [e|]; [|reflexivity].
  unfold IOError. destruct e; reflexivity.
Qed.

(** ** The drawing *)

(** Guard of line 80. *)
Lemma shadow_guard size : (Z.max 1 (size // 128) >? 0) = true.
Proof. apply Z.gtb_lt. lia. Qed.

Definition text_x (size : Z) (font : Font) : Z :=
  let bbox := textbbox env (0, 0) (label_text size) font in
  (size - (box_right bbox - box_left bbox)) // 2.

Definition text_y (size : Z) (font : Font) : Z :=
  let bbox := textbbox env (0, 0) (label_text size) font in
  (size - (box_bottom bbox - box_top bbox)) // 2.

(** The image that reaches [img.save] when [font] was selected. *)
Definition icon_image (size : Z) (font : Font) : Image :=
  mkImage "RGBA" (size, size) (52, 120, 246, 255)
    [ DrawRectangle (0, 0, size - 1, size - 1) (30, 90, 200, 255)
        (Z.max 1 (size // 64));
      DrawText (text_x size font + Z.max 1 (size // 128),
                text_y size font + Z.max 1 (size // 128))
        (label_text size) (0, 0, 0, 100) font;
      DrawText (text_x size font, text_y size font)
        (label_text size) (255, 255, 255, 255) font ].

Definition created_line (size : Z) (output_path : string) : string :=
  "Created " +:+ pretty size +:+ "x" +:+ pretty size +:+ " icon: "
  +:+ output_path.

Lemma create_placeholder_icon_eq size output_path :
  create_placeholder_icon env size output_path =
    (let* font := load_font env size in
     img_save (icon_image size font) output_path ;;
     print (created_line size output_path)).
Proof.
  unfold create_placeholder_icon. rewrite shadow_guard. reflexivity.
Qed.

(** A call returns normally exactly when a font was selected and the file
    can be written; it then adds one file and one line. *)
Lemma create_placeholder_icon_ok size output_path w w' :
  create_placeholder_icon env size output_path w = (Ok tt, w') <->
  exists font,
    load_font_result size = Ok font /\
    (output_path ∉ dirs w) /\
    (os_path_dirname output_path ∈ dirs w) /\
    w' = mkWorld (dirs w) (<[output_path := icon_image size font]> (files w))
           (stdout w ++ [created_line size output_path]).
Proof.
  rewrite create_placeholder_icon_eq. unfold bind. rewrite load_font_eq.
  unfold img_save, print.
  destruct (load_font_result size) as [font| |].
  - repeat case_bool_decide; cbn.
    + split; [discriminate|]. intros (? & ? & ? & _). done.
    + split.
      * intros [= <-]. by exists font.
      * intros (? & [= <-] & _ & _ & ->). done.
    + split; [discriminate|]. intros (? & ? & ? & ? & _). done.
  - split; [discriminate|]. intros (? & ? & _). discriminate.
  - split; [discriminate|]. intros (? & ? & _). discriminate.
Qed.

End Facts.

(** * Sample installations *)

Definition helvetica : string := "/System/Library/Fonts/Helvetica.ttc".

(** No font file is present: every icon is lettered in the default font,
    measured here as a 12 by 11 box at the drawing position. *)
Definition bare_env : Env :=
  demo_env true (fun _ => false) (fun _ _ => None) (fun _ _ => (0, 0, 12, 11)).

(** Helvetica is present.  Pillow refuses a font size that is not
    positive with [ValueError].  Glyph boxes grow with the font size and,
    as for every outline font under the default anchor, start below the
    drawing position (the ascender line) and a little to its right. *)
Definition mac_env : Env :=
  demo_env true (fun p => bool_decide (p = helvetica))
    (fun _ s => if s <=? 0 then Some ValueError else None)
    (fun text font =>
       match font with
       | TrueType _ s => (s // 25, s // 5, s // 25 + 3 * s // 2, 9 * s // 10)
       | DefaultFont => (0, 0, 12, 11)
       end).

(** Helvetica is present but cannot be read. *)
Definition broken_font_env : Env :=
  demo_env true (fun p => bool_decide (p = helvetica))
    (fun _ _ => Some OSError) (fun _ _ => (0, 0, 12, 11)).

(** The imaging library is missing. *)
Definition no_pillow_env : Env :=
  demo_env false (fun _ => false) (fun _ _ => None) (fun _ _ => (0, 0, 12, 11)).

(** An output tree in which [/out] exists. *)
Definition out_world : World := mkWorld {[ "/out"%string ]} ∅ [].

(** When is a box centred on a [size] by [size] canvas?  When the margins
    on opposite sides differ by at most the one pixel that rounding
    costs. *)
Definition centered_in (size : Z) (b : Box) : Prop :=
  Z.abs (box_left b - (size - box_right b)) <= 1 /\
  Z.abs (box_top b - (size - box_bottom b)) <= 1.

(** * The drawing of one icon *)

Section Drawing.

Variable env : Env.

Lemma saved_image size output_path w w' :
  create_placeholder_icon env size output_path w = (Ok tt, w') ->
  exists font,
    load_font_result env size = Ok font /\
    files w' !! output_path = Some (icon_image env size font).
Proof.
  intros (font & Hfont & _ & _ & ->)%create_placeholder_icon_ok.
  exists font. split; [done|]. cbn. apply lookup_insert_eq.
Qed.

(** C2. Whatever the size, every text that [create_placeholder_icon]
    draws on the icon it saves is the label "OR" when [size >= 64] and
    "O" when [size < 64]; and a label is drawn. *)
Theorem label_OR_from_64 size output_path w w' :
  create_placeholder_icon env size output_path w = (Ok tt, w') ->
  exists img,
    files w' !! output_path = Some img /\
    (exists xy text fill font, DrawText xy text fill font ∈ im_ops img) /\
    forall xy text fill font,
      DrawText xy text fill font ∈ im_ops img ->
      (64 <= size -> text = "OR"%string) /\ (size < 64 -> text = "O"%string).
Proof.
  intros (font & _ & Himg)%saved_image.
  exists (icon_image env size font). split; [done|]. split.
  - eexists _, _, _, _. cbn. do 2 right. left.
  - cbn. intros xy text fill f Hin.
    assert (text = label_text size) as ->.
    { repeat (apply elem_of_cons in Hin as [Hin|Hin]; [congruence|]).
      by apply elem_of_nil in Hin. }
    unfold label_text. destruct (Z.geb_spec size 64); split; (lia || done).
Qed.

(** C3. Whatever the size, the outline rectangle of the saved icon, its
    only rectangle, is drawn with width [max(1, size // 64)]. *)
Theorem border_width_max_1_size_div_64 size output_path w w' :
  create_placeholder_icon env size output_path w = (Ok tt, w') ->
  exists img rest,
    files w' !! output_path = Some img /\
    im_ops img =
      DrawRectangle (0, 0, size - 1, size - 1) (30, 90, 200, 255)
        (Z.max 1 (size // 64)) :: rest /\
    forall box outline width, DrawRectangle box outline width ∉ rest.
Proof.
  intros (font & _ & Himg)%saved_image.
  eexists (icon_image env size font), _. split; [done|]. split; [reflexivity|].
  intros box outline width Hin.
  repeat (apply elem_of_cons in Hin as [Hin|Hin]; [discriminate|]).
  by apply elem_of_nil in Hin.
Qed.

(** C4. Whatever the size, the shadow text of the saved icon is drawn
    [max(1, size // 128)] pixels to the right of and below the label. *)
Theorem shadow_offset_max_1_size_div_128 size output_path w w' :
  create_placeholder_icon env size output_path w = (Ok tt, w') ->
  exists img border x y text font,
    files w' !! output_path = Some img /\
    im_ops img =
      [ border;
        DrawText (x + Z.max 1 (size // 128), y + Z.max 1 (size // 128))
          text (0, 0, 0, 100) font;
        DrawText (x, y) text (255, 255, 255, 255) font ].
Proof.
  intros (font & _ & Himg)%saved_image.
  eexists (icon_image env size font), _, _, _, _, _. split; [done|].
  reflexivity.
Qed.

(** C10. For every size of at least 1 the shadow offset
    [max(1, size // 128)] is at least 1, the guard [shadow_offset > 0] of
    line 80 holds, and the saved icon carries the semi-transparent black
    shadow text. *)
Theorem shadow_always_drawn size output_path w w' :
  1 <= size ->
  create_placeholder_icon env size output_path w = (Ok tt, w') ->
  1 <= Z.max 1 (size // 128) /\
  (Z.max 1 (size // 128) >? 0) = true /\
  exists img xy font,
    files w' !! output_path = Some img /\
    DrawText xy (label_text size) (0, 0, 0, 100) font ∈ im_ops img.
Proof.
  intros _ (font & _ & Himg)%saved_image.
  split; [lia|]. split; [apply shadow_guard|].
  eexists (icon_image env size font), _, _. split; [done|].
  cbn. right. left.
Qed.

End Drawing.

Example border_width_16 : Z.max 1 (16 // 64) = 1.
Proof. reflexivity. Qed.

Example border_width_1024 : Z.max 1 (1024 // 64) = 16.
Proof. reflexivity. Qed.

Example shadow_offset_64 : Z.max 1 (64 // 128) = 1.
Proof. reflexivity. Qed.

Example shadow_offset_1024 : Z.max 1 (1024 // 128) = 8.
Proof. reflexivity. Qed.

(** The theorems above at work: one icon of each kind written to [/out]. *)

Lemma label_OR_from_64_witness :
  create_placeholder_icon bare_env 64 "/out/icon_64x64.png" out_world
    = (Ok tt, snd (create_placeholder_icon bare_env 64 "/out/icon_64x64.png"
                     out_world)) /\
  exists img,
    files (snd (create_placeholder_icon bare_env 64 "/out/icon_64x64.png"
                  out_world)) !! "/out/icon_64x64.png"%string = Some img /\
    (exists xy text fill font, DrawText xy text fill font ∈ im_ops img) /\
    forall xy text fill font,
      DrawText xy text fill font ∈ im_ops img ->
      (64 <= 64 -> text = "OR"%string) /\ (64 < 64 -> text = "O"%string).
Proof.
  split; [vm_compute; reflexivity|].
  apply (label_OR_from_64 bare_env 64 "/out/icon_64x64.png" out_world).
  vm_compute; reflexivity.
Defined.

Lemma border_width_witness :
  create_placeholder_icon bare_env 16 "/out/icon_16x16.png" out_world
    = (Ok tt, snd (create_placeholder_icon bare_env 16 "/out/icon_16x16.png"
                     out_world)) /\
  exists img rest,
    files (snd (create_placeholder_icon bare_env 16 "/out/icon_16x16.png"
                  out_world)) !! "/out/icon_16x16.png"%string = Some img /\
    im_ops img = DrawRectangle (0, 0, 15, 15) (30, 90, 200, 255) 1 :: rest /\
    forall box outline width, DrawRectangle box outline width ∉ rest.
Proof.
  split; [vm_compute; reflexivity|].
  apply (border_width_max_1_size_div_64 bare_env 16 "/out/icon_16x16.png"
           out_world).
  vm_compute; reflexivity.
Defined.

Lemma shadow_offset_witness :
  create_placeholder_icon mac_env 1024 "/out/icon_1024x1024.png" out_world
    = (Ok tt, snd (create_placeholder_icon mac_env 1024
                     "/out/icon_1024x1024.png" out_world)) /\
  exists img border x y text font,
    files (snd (create_placeholder_icon mac_env 1024
                  "/out/icon_1024x1024.png" out_world))
      !! "/out/icon_1024x1024.png"%string = Some img /\
    im_ops img =
      [ border;
        DrawText (x + 8, y + 8) text (0, 0, 0, 100) font;
        DrawText (x, y) text (255, 255, 255, 255) font ].
Proof.
  split; [vm_compute; reflexivity|].
  apply (shadow_offset_max_1_size_div_128 mac_env 1024
           "/out/icon_1024x1024.png" out_world).
  vm_compute; reflexivity.
Defined.

Lemma shadow_always_drawn_witness :
  1 <= 32 /\
  1 <= Z.max 1 (32 // 128) /\
  (Z.max 1 (32 // 128) >? 0) = true /\
  exists img xy font,
    files (snd (create_placeholder_icon bare_env 32 "/out/icon_32x32.png"
                  out_world)) !! "/out/icon_32x32.png"%string = Some img /\
    DrawText xy (label_text 32) (0, 0, 0, 100) font ∈ im_ops img.
Proof.
  split; [lia|].
  apply (shadow_always_drawn bare_env 32 "/out/icon_32x32.png" out_world);
    [lia | vm_compute; reflexivity].
Defined.

(** * Font loading *)

(** "A default font is substituted whenever loading fails", read for
    every exception [ImageFont.truetype] can raise. *)
Definition default_on_any_load_failure : Prop :=
  forall env size w p e,
    find (font_exists env) font_paths = Some p ->
    truetype_raises env p (font_size_of size) = Some e ->
    load_font env size w = (Ok DefaultFont, w).

(** "No failure of font loading reaches the caller", read the same way. *)
Definition no_load_failure_propagates : Prop :=
  forall env size output_path w p e,
    find (font_exists env) font_paths = Some p ->
    truetype_raises env p (font_size_of size) = Some e ->
    fst (create_placeholder_icon env size output_path w) <> Raise e.

(** The classes named by the two [except] clauses of lines 58 and 61. *)
Definition absorbed (e : exn) : bool :=
  exn_isa e OSError || exn_isa e IOError || exn_isa e ImportError.

Lemma absorbed_eq e : absorbed e = exn_isa e OSError || exn_isa e ImportError.
Proof. by destruct e. Qed.

(** C5, as the code has it. The font size asked of [ImageFont.truetype]
    is [size // 8] from 128 on, [size // 6] from 64 to 127 and [size // 4]
    below 64.  The three font locations are probed in their fixed order and
    only the first one that exists is loaded.  The default font is used
    when no location exists or when loading raises [OSError] ([IOError])
    or [ImportError]. *)
Theorem font_size_and_fallback env size w :
  (128 <= size -> font_size_of size = size // 8) /\
  (64 <= size < 128 -> font_size_of size = size // 6) /\
  (size < 64 -> font_size_of size = size // 4) /\
  font_paths =
    [ "/System/Library/Fonts/Helvetica.ttc";
      "/System/Library/Fonts/Arial.ttf";
      "/usr/share/fonts/truetype/liberation/LiberationSans-Regular.ttf"
    ]%string /\
  match find (font_exists env) font_paths with
  | None => load_font env size w = (Ok DefaultFont, w)
  | Some p =>
      match truetype_raises env p (font_size_of size) with
      | None => load_font env size w = (Ok (TrueType p (font_size_of size)), w)
      | Some e => absorbed e = true -> load_font env size w = (Ok DefaultFont, w)
      end
  end.
Proof.
  unfold font_size_of. repeat split.
  - intros H. destruct (Z.geb_spec size 128); [done | lia].
  - intros H. destruct (Z.geb_spec size 128); [lia|].
    destruct (Z.geb_spec size 64); [done | lia].
  - intros H. destruct (Z.geb_spec size 128); [lia|].
    destruct (Z.geb_spec size 64); [lia | done].
  - rewrite load_font_eq. unfold load_font_result, font_size_of.
    destruct (find _ _) as [p|]; [|done].
    destruct (truetype_raises _ _ _) as [e|]; [|done].
    rewrite absorbed_eq. by intros ->.
Qed.

(** C5, as the claim has it, fails: with Helvetica installed an icon of
    size 2 asks for font size 0, Pillow answers [ValueError], and no font
    is substituted. *)
Lemma default_on_any_load_failure_refuted : ~ default_on_any_load_failure.
Proof.
  intros H.
  specialize (H mac_env 2 out_world helvetica ValueError eq_refl eq_refl).
  vm_compute in H. discriminate.
Qed.

Example load_font_size_2 :
  load_font mac_env 2 out_world = (Raise ValueError, out_world).
Proof. reflexivity. Qed.

(** C7, as the code has it. When loading the font raises [OSError]
    ([IOError]) or [ImportError], [create_placeholder_icon] goes on with
    the default font: the call is the one that saves the icon lettered in
    the default font. *)
Theorem absorbed_load_failure env size output_path w p e :
  find (font_exists env) font_paths = Some p ->
  truetype_raises env p (font_size_of size) = Some e ->
  absorbed e = true ->
  load_font env size w = (Ok DefaultFont, w) /\
  create_placeholder_icon env size output_path w =
    (img_save (icon_image env size DefaultFont) output_path ;;
     print (created_line size output_path)) w.
Proof.
  intros Hp He Ha.
  assert (load_font env size w = (Ok DefaultFont, w)) as Hload.
  { rewrite load_font_eq. unfold load_font_result.
    rewrite Hp, He. rewrite absorbed_eq in Ha. by rewrite Ha. }
  split; [done|].
  rewrite create_placeholder_icon_eq. unfold bind at 1. by rewrite Hload.
Qed.

Lemma absorbed_load_failure_witness :
  find (font_exists broken_font_env) font_paths = Some helvetica /\
  truetype_raises broken_font_env helvetica (font_size_of 256) = Some OSError /\
  absorbed OSError = true /\
  load_font broken_font_env 256 out_world = (Ok DefaultFont, out_world) /\
  create_placeholder_icon broken_font_env 256 "/out/icon_256x256.png" out_world =
    (img_save (icon_image broken_font_env 256 DefaultFont)
       "/out/icon_256x256.png" ;;
     print (created_line 256 "/out/icon_256x256.png")) out_world.
Proof.
  do 3 (split; [reflexivity|]).
  apply (absorbed_load_failure broken_font_env 256 "/out/icon_256x256.png"
           out_world helvetica OSError); reflexivity.
Defined.

(** C7, as the claim has it, fails: the [ValueError] of a font size that
    is not positive is in neither [except] clause and ends the call. *)
Lemma no_load_failure_propagates_refuted : ~ no_load_failure_propagates.
Proof.
  intros H.
  apply (H mac_env 1 "/out/icon_1x1.png"%string out_world helvetica ValueError);
    reflexivity.
Qed.

Example create_placeholder_icon_size_1 :
  create_placeholder_icon mac_env 1 "/out/icon_1x1.png" out_world
    = (Raise ValueError, out_world).
Proof. reflexivity. Qed.

(** * Centring the label *)

Section Centring.

Variable env : Env.

(** Where the glyphs of the label end up: [draw.text((x, y), ...)] puts
    them in the box [draw.textbbox((x, y), ...)]. *)
Definition ink_box (size : Z) (font : Font) : Box :=
  textbbox env (text_x env size font, text_y env size font)
    (label_text size) font.

Lemma half_bounds n : 2 * (n // 2) <= n <= 2 * (n // 2) + 1.
Proof.
  pose proof (Z.div_mod n 2 ltac:(lia)).
  pose proof (Z.mod_pos_bound n 2 ltac:(lia)). lia.
Qed.

(** Lines 75-76 centre a box of the measured width and height whose top
    left corner is the drawing position. *)
Lemma measured_box_centered size font :
  let bbox := textbbox env (0, 0) (label_text size) font in
  let x := text_x env size font in
  let y := text_y env size font in
  centered_in size
    (x, y, x + (box_right bbox - box_left bbox),
     y + (box_bottom bbox - box_top bbox)).
Proof.
  cbn zeta. unfold centered_in, text_x, text_y. cbn [box_left box_right box_top box_bottom].
  set (b := textbbox env (0, 0) (label_text size) font).
  pose proof (half_bounds (size - (box_right b - box_left b))).
  pose proof (half_bounds (size - (box_bottom b - box_top b))).
  split; lia.
Qed.

(** The glyphs themselves are centred when the measured box starts at the
    drawing position. *)
Lemma ink_centered_without_bearing size font :
  box_left (getbbox env (label_text size) font) = 0 ->
  box_top (getbbox env (label_text size) font) = 0 ->
  centered_in size (ink_box size font).
Proof.
  intros Hl Ht. unfold centered_in, ink_box, text_x, text_y, textbbox.
  cbn [box_left box_right box_top box_bottom fst snd].
  set (g := getbbox env (label_text size) font) in *.
  rewrite Hl, Ht, !Z.add_0_r.
  pose proof (half_bounds (size - (box_right g - 0))).
  pose proof (half_bounds (size - (box_bottom g - 0))).
  split; lia.
Qed.

(** They are off centre as soon as the measured box starts two pixels or
    more below the drawing position, as it does for an outline font of
    any legible size. *)
Lemma ink_off_centre_below_ascender size font :
  2 <= box_top (getbbox env (label_text size) font) ->
  ~ centered_in size (ink_box size font).
Proof.
  intros Ht [_ Hv]. revert Hv. unfold ink_box, text_y, textbbox.
  cbn [box_left box_right box_top box_bottom fst snd].
  set (g := getbbox env (label_text size) font) in *.
  rewrite !Z.add_0_r.
  pose proof (half_bounds (size - (box_bottom g - box_top g))).
  lia.
Qed.

End Centring.

(** C8 on Helvetica at 1024 pixels. The label "OR" measures
    [(5, 25, 197, 115)] at font size 128; the code draws it at
    [(416, 467)], which centres a 192 by 90 box placed there; the glyphs
    land in [(421, 492, 613, 582)], 492 pixels from the top edge and 442
    from the bottom edge, so the label is not centred on the canvas. *)
Theorem label_off_centre_1024 :
  exists w' img,
    create_placeholder_icon mac_env 1024 "/out/icon_1024x1024.png" out_world
      = (Ok tt, w') /\
    files w' !! "/out/icon_1024x1024.png"%string = Some img /\
    textbbox mac_env (0, 0) "OR" (TrueType helvetica 128) = (5, 25, 197, 115) /\
    last (im_ops img) =
      Some (DrawText (416, 467) "OR" (255, 255, 255, 255)
              (TrueType helvetica 128)) /\
    textbbox mac_env (416, 467) "OR" (TrueType helvetica 128)
      = (421, 492, 613, 582) /\
    ~ centered_in 1024
        (textbbox mac_env (416, 467) "OR" (TrueType helvetica 128)).
Proof.
  eexists _, _. split; [vm_compute; reflexivity|].
  split; [vm_compute; reflexivity|].
  do 3 (split; [reflexivity|]).
  intros [_ Hv]. vm_compute in Hv. by apply Hv.
Qed.

(** * The loop of [main] *)

Section Loop.

Variable env : Env.

(** Body of the loop of lines 122-124. *)
Definition icon_step (spec : Z * string) : M unit :=
  let '(size, filename) := spec in
  let output_path := os_path_join (app_icon_dir env) [filename] in
  create_placeholder_icon env size output_path.

Definition icon_path (spec : Z * string) : string :=
  os_path_join (app_icon_dir env) [spec.2].

(** The font [load_font] returns for a size, when it returns one. *)
Definition the_font (size : Z) : Font :=
  match load_font_result env size with
  | Ok font => font
  | _ => DefaultFont
  end.

Definition the_icon (spec : Z * string) : Image :=
  icon_image env spec.1 (the_font spec.1).

(** The files after the icons of [specs] were saved, one after the other. *)
Definition write_icons (specs : list (Z * string))
    (m : gmap string Image) : gmap string Image :=
  foldl (fun m spec => <[icon_path spec := the_icon spec]> m) m specs.

(** What one round of the loop needs of the directories [ds]. *)
Definition can_write (ds : gset string) (spec : Z * string) : Prop :=
  (exists font, load_font_result env spec.1 = Ok font) /\
  (icon_path spec ∉ ds) /\
  (os_path_dirname (icon_path spec) ∈ ds).

Definition created_lines (specs : list (Z * string)) : list string :=
  map (fun spec => created_line spec.1 (icon_path spec)) specs.

Lemma icon_step_ok spec w w' :
  icon_step spec w = (Ok tt, w') <->
  can_write (dirs w) spec /\
  w' = mkWorld (dirs w) (<[icon_path spec := the_icon spec]> (files w))
         (stdout w ++ [created_line spec.1 (icon_path spec)]).
Proof.
  destruct spec as [size filename]. unfold icon_step, can_write, the_icon,
    the_font, icon_path. cbn [fst snd].
  rewrite create_placeholder_icon_ok. split.
  - intros (font & Hf & Hn & Hd & ->). rewrite Hf. eauto 6.
  - intros (([font Hf] & Hn & Hd) & ->). exists font. by rewrite Hf.
Qed.

(** The loop returns normally exactly when every round can write; it then
    has saved every icon and printed one line for each, in list order. *)
Lemma for_each_icon_step_ok specs : forall w w',
  for_each specs icon_step w = (Ok tt, w') <->
  Forall (can_write (dirs w)) specs /\
  w' = mkWorld (dirs w) (write_icons specs (files w))
         (stdout w ++ created_lines specs).
Proof.
  induction specs as [|spec specs IH]; intros w w'.
  - cbn. rewrite app_nil_r. destruct w. cbn. split.
    + intros [= <-]. done.
    + intros [_ ->]. done.
  - cbn [for_each]. unfold bind at 1.
    destruct (icon_step spec w) as [[[]|e|code] w1] eqn:Hstep.
    + apply icon_step_ok in Hstep as [Hcan ->].
      rewrite IH. cbn [dirs files stdout write_icons created_lines foldl map].
      rewrite <- app_assoc. cbn [app]. rewrite Forall_cons. intuition.
    + split; [discriminate|]. intros [[Hcan _]%Forall_cons _].
      pose proof (proj2 (icon_step_ok spec w _) (conj Hcan eq_refl)).
      congruence.
    + split; [discriminate|]. intros [[Hcan _]%Forall_cons _].
      pose proof (proj2 (icon_step_ok spec w _) (conj Hcan eq_refl)).
      congruence.
Qed.

Lemma write_icons_snoc specs spec m :
  write_icons (specs ++ [spec]) m
    = <[icon_path spec := the_icon spec]> (write_icons specs m).
Proof. unfold write_icons. by rewrite foldl_app. Qed.

Lemma lookup_write_icons specs m p :
  write_icons specs m !! p =
    match find (fun spec => bool_decide (icon_path spec = p)) (reverse specs) with
    | Some spec => Some (the_icon spec)
    | None => m !! p
    end.
Proof.
  induction specs as [|spec specs IH] using rev_ind; [reflexivity|].
  rewrite write_icons_snoc, reverse_snoc. cbn [find].
  case_bool_decide as Hp.
  - subst p. apply lookup_insert_eq.
  - by rewrite lookup_insert_ne.
Qed.

(** Saving the same icons a second time changes nothing. *)
Lemma write_icons_twice specs m :
  write_icons specs (write_icons specs m) = write_icons specs m.
Proof.
  apply map_eq. intros p. rewrite (lookup_write_icons specs (write_icons _ _)).
  rewrite (lookup_write_icons specs m).
  by destruct (find _ _).
Qed.

Lemma dom_write_icons specs m :
  dom (write_icons specs m) = dom m ∪ list_to_set (icon_path <$> specs).
Proof.
  induction specs as [|spec specs IH] using rev_ind.
  - cbn. by rewrite union_empty_r_L.
  - rewrite write_icons_snoc, dom_insert_L, IH, fmap_app, list_to_set_app_L.
    cbn. rewrite union_empty_r_L, (comm_L (∪) {[ icon_path spec ]}).
    by rewrite (assoc_L (∪)).
Qed.

End Loop.

(** * [main] and the script *)

(** Lines 117-119. *)
Definition banner (env : Env) : list string :=
  [ "Generating placeholder app icons for Orchard...";
    "Output directory: " +:+ app_icon_dir env;
    "" ]%string.

(** Lines 126-130. *)
Definition closing : list string :=
  [ "";
    "✅ Placeholder icons generated successfully!";
    "";
    "Your app should now build without icon errors.";
    "To create proper app icons, see the ICON_GUIDE.md file." ]%string.

(** ** The directory *)

Lemma bind_print {B} line (k : M B) w :
  bind (print line) (fun _ => k) w
    = k (mkWorld (dirs w) (files w) (stdout w ++ [line])).
Proof. reflexivity. Qed.

Lemma os_makedirs_ok name w wa :
  os_makedirs name true w = (Ok tt, wa) ->
  name ∈ dirs wa /\ files wa = files w /\ stdout wa = stdout w.
Proof.
  unfold os_makedirs. repeat case_bool_decide; try discriminate.
  - intros [= <-]. done.
  - destruct (existsb _ _); [discriminate|]. intros [= <-]. cbn.
    split; [|done]. apply elem_of_union_r. by apply elem_of_singleton.
Qed.

Lemma os_makedirs_existing name w :
  name ∈ dirs w -> os_makedirs name true w = (Ok tt, w).
Proof. intros H. unfold os_makedirs. by rewrite bool_decide_eq_true_2. Qed.

Lemma os_makedirs_not_exist_ok name w :
  name ∈ dirs w -> os_makedirs name false w = (Raise FileExistsError, w).
Proof. intros H. unfold os_makedirs. by rewrite bool_decide_eq_true_2. Qed.

(** [main] returns normally exactly when Pillow is there, the icon
    directory can be made and every icon can be written. *)
Lemma main_ok env w w' :
  main env w = (Ok tt, w') <->
  pil_installed env = true /\
  exists wa,
    os_makedirs (app_icon_dir env) true w = (Ok tt, wa) /\
    Forall (can_write env (dirs wa)) icon_sizes /\
    w' = mkWorld (dirs wa) (write_icons env icon_sizes (files wa))
           (stdout wa ++ banner env ++ created_lines env icon_sizes ++ closing).
Proof.
  unfold main. unfold bind at 1, try_except, import_PIL.
  destruct (pil_installed env).
  2:{ cbn. split; [discriminate|]. intros [? _]. discriminate. }
  unfold bind at 1.
  destruct (os_makedirs (app_icon_dir env) true w) as [[[]|e|code] wa] eqn:Hmk.
  2,3: split; [discriminate|]; intros (_ & ? & ? & _); discriminate.
  rewrite !bind_print. cbn [dirs files stdout]. unfold bind at 1.
  change (for_each icon_sizes _) with (for_each icon_sizes (icon_step env)).
  set (wb := mkWorld _ _ _).
  destruct (for_each icon_sizes (icon_step env) wb) as [[[]|e|code] wc] eqn:Hloop.
  - apply for_each_icon_step_ok in Hloop as [Hall ->].
    rewrite !bind_print. unfold print. subst wb. cbn [dirs files stdout].
    rewrite <- !app_assoc. unfold banner, closing. cbn [app].
    split.
    + intros [= <-]. split; [done|]. exists wa. repeat split; try done.
    + intros (_ & wa' & [= <-] & _ & ->). done.
  - split; [discriminate|]. intros (_ & wa' & [= <-] & Hall & _).
    pose proof (proj2 (for_each_icon_step_ok env icon_sizes wb _) (conj Hall eq_refl)).
    congruence.
  - split; [discriminate|]. intros (_ & wa' & [= <-] & Hall & _).
    pose proof (proj2 (for_each_icon_step_ok env icon_sizes wb _) (conj Hall eq_refl)).
    congruence.
Qed.

(** What the guard of lines 92-97 does when it is reached without
    Pillow. *)
Lemma main_guard env w :
  pil_installed env = false ->
  main env w =
    (SysExit 1,
     mkWorld (dirs w) (files w)
       (stdout w ++ [ "Error: Pillow library is required.";
                      "Install it with: pip install Pillow" ]%string)).
Proof.
  intros Hpil. unfold main, bind at 1, try_except, import_PIL.
  rewrite Hpil. cbn. by rewrite <- app_assoc.
Qed.

(** The script reaches [main] only after line 17 has imported Pillow. *)
Lemma script_eq env w :
  script env w =
    if pil_installed env then main env w else (Raise ModuleNotFoundError, w).
Proof.
  unfold script, bind at 1, import_PIL. by destruct (pil_installed env).
Qed.

(** C1 on the code. Without Pillow the script ends at the import of
    line 17 with an uncaught [ModuleNotFoundError]: the exit status is 1
    and nothing was created, but nothing was printed either, so the
    message with the install instructions of lines 95-96 never appears. *)
Theorem script_without_pillow env w :
  pil_installed env = false ->
  script env w = (Raise ModuleNotFoundError, w) /\
  exit_status (fst (script env w)) = 1 /\
  stdout (snd (script env w)) = stdout w /\
  files (snd (script env w)) = files w /\
  dirs (snd (script env w)) = dirs w.
Proof.
  intros Hpil. rewrite script_eq, Hpil. done.
Qed.

Lemma script_without_pillow_witness :
  pil_installed no_pillow_env = false /\
  script no_pillow_env empty_world = (Raise ModuleNotFoundError, empty_world) /\
  exit_status (fst (script no_pillow_env empty_world)) = 1 /\
  stdout (snd (script no_pillow_env empty_world)) = stdout empty_world /\
  files (snd (script no_pillow_env empty_world)) = files empty_world /\
  dirs (snd (script no_pillow_env empty_world)) = dirs empty_world.
Proof.
  split; [reflexivity|].
  apply (script_without_pillow no_pillow_env empty_world). reflexivity.
Defined.

(** ** Running [main] *)

Lemma icon_filenames_plain spec : spec ∈ icon_sizes -> has_sep spec.2 = false.
Proof.
  unfold icon_sizes. intros H.
  repeat (apply elem_of_cons in H as [->|H]; [reflexivity|]).
  by apply elem_of_nil in H.
Qed.

Lemma icon_sizes_by_filename spec1 spec2 :
  spec1 ∈ icon_sizes -> spec2 ∈ icon_sizes -> spec1.2 = spec2.2 ->
  spec1.1 = spec2.1.
Proof.
  unfold icon_sizes. intros H1 H2.
  repeat (apply elem_of_cons in H1 as [->|H1];
    [repeat (apply elem_of_cons in H2 as [->|H2];
       [cbn; first [reflexivity | discriminate]|]);
     by apply elem_of_nil in H2|]).
  by apply elem_of_nil in H1.
Qed.

Lemma icon_path_inj env spec1 spec2 :
  spec1 ∈ icon_sizes -> spec2 ∈ icon_sizes ->
  icon_path env spec1 = icon_path env spec2 -> spec1.1 = spec2.1.
Proof.
  intros H1 H2 Hp. apply icon_sizes_by_filename; [done..|].
  apply (os_path_join_file_inj (app_icon_dir env));
    auto using app_icon_dir_nonempty, app_icon_dir_no_trailing_sep,
               icon_filenames_plain.
Qed.

(** Each of the seven paths holds the image of its own size. *)
Lemma lookup_written_icon env m spec :
  spec ∈ icon_sizes ->
  exists img,
    write_icons env icon_sizes m !! icon_path env spec = Some img /\
    im_size img = (spec.1, spec.1).
Proof.
  intros Hin. rewrite lookup_write_icons.
  destruct (find _ _) as [spec'|] eqn:Hfind.
  - apply find_some in Hfind as [Hin' Hp%bool_decide_eq_true_1].
    apply list_elem_of_In, elem_of_reverse in Hin'.
    eexists. split; [done|]. cbn.
    by rewrite (icon_path_inj env spec' spec).
  - exfalso. eapply find_none in Hfind.
    + by apply bool_decide_eq_false_1 in Hfind.
    + by apply list_elem_of_In, elem_of_reverse.
Qed.

(** C9. After a run of [main] that succeeded, a second run succeeds too:
    [os.makedirs] with [exist_ok=True] accepts the directory that is
    there and leaves the tree alone, each of the seven paths holds a file
    that the second run replaces, and the second run ends with the same
    directories and the same files as the first. *)
Theorem main_second_run env w0 w1 :
  main env w0 = (Ok tt, w1) ->
  os_makedirs (app_icon_dir env) true w1 = (Ok tt, w1) /\
  (forall spec, spec ∈ icon_sizes -> is_Some (files w1 !! icon_path env spec)) /\
  exists w2,
    main env w1 = (Ok tt, w2) /\
    dirs w2 = dirs w1 /\
    files w2 = files w1.
Proof.
  intros (Hpil & wa & Hmk & Hall & ->)%main_ok.
  apply os_makedirs_ok in Hmk as (Hdir & _ & _).
  set (w1 := mkWorld _ _ _).
  assert (os_makedirs (app_icon_dir env) true w1 = (Ok tt, w1)) as Hmk1
    by by apply os_makedirs_existing.
  split; [done|]. split.
  - intros spec Hin. destruct (lookup_written_icon env (files wa) spec Hin)
      as (img & Himg & _). by exists img.
  - eexists. split.
    + apply main_ok. split; [done|]. exists w1. split; [done|]. split; [done|].
      reflexivity.
    + split; [done|]. apply write_icons_twice.
Qed.

Lemma main_second_run_witness :
  main bare_env empty_world = (Ok tt, snd (main bare_env empty_world)) /\
  os_makedirs (app_icon_dir bare_env) true (snd (main bare_env empty_world))
    = (Ok tt, snd (main bare_env empty_world)) /\
  (forall spec, spec ∈ icon_sizes ->
     is_Some (files (snd (main bare_env empty_world))
                !! icon_path bare_env spec)) /\
  exists w2,
    main bare_env (snd (main bare_env empty_world)) = (Ok tt, w2) /\
    dirs w2 = dirs (snd (main bare_env empty_world)) /\
    files w2 = files (snd (main bare_env empty_world)).
Proof.
  split; [vm_compute; reflexivity|].
  apply (main_second_run bare_env empty_world). vm_compute; reflexivity.
Defined.

(** C6. [main] has seven (size, filename) pairs, of sizes 16, 32, 64,
    128, 256, 512 and 1024, each named [icon_{size}x{size}.png].  A run
    that returns normally has called [create_placeholder_icon] once per
    pair in list order (one confirmation line each, in that order, between
    the banner and the closing lines), and each call has left a
    [size] by [size] image directly in the icon directory, which is
    [../Orchard/Assets.xcassets/AppIcon.appiconset] seen from the
    directory of the script; no other file was written. *)
Theorem main_writes_seven_icons env w w' :
  main env w = (Ok tt, w') ->
  length icon_sizes = 7%nat /\
  icon_sizes.*1 = [16; 32; 64; 128; 256; 512; 1024] /\
  app_icon_dir env =
    os_path_join (os_path_dirname (script_abspath env))
      [ ".."; "Orchard"; "Assets.xcassets"; "AppIcon.appiconset" ]%string /\
  (forall size filename,
     (size, filename) ∈ icon_sizes ->
     filename = "icon_" +:+ pretty size +:+ "x" +:+ pretty size +:+ ".png" /\
     os_path_join (app_icon_dir env) [filename]
       = app_icon_dir env +:+ "/" +:+ filename /\
     os_path_dirname (os_path_join (app_icon_dir env) [filename])
       = app_icon_dir env /\
     exists img,
       files w' !! os_path_join (app_icon_dir env) [filename] = Some img /\
       im_size img = (size, size)) /\
  dom (files w') =
    dom (files w)
    ∪ list_to_set ((fun spec => os_path_join (app_icon_dir env) [spec.2])
                     <$> icon_sizes) /\
  stdout w' =
    stdout w ++ banner env
    ++ map (fun spec =>
              created_line spec.1 (os_path_join (app_icon_dir env) [spec.2]))
         icon_sizes
    ++ closing.
Proof.
  intros (Hpil & wa & Hmk & Hall & ->)%main_ok.
  apply os_makedirs_ok in Hmk as (Hdir & Hfiles & Hout).
  do 3 (split; [reflexivity|]). cbn [files stdout]. split; [|split].
  - intros size filename Hin.
    pose proof (icon_filenames_plain _ Hin) as Hplain. cbn in Hplain.
    split; [|split; [|split]].
    + revert Hin. unfold icon_sizes. intros Hin.
      repeat (apply elem_of_cons in Hin as [[= -> ->]|Hin]; [reflexivity|]).
      by apply elem_of_nil in Hin.
    + apply os_path_join_file;
        auto using app_icon_dir_nonempty, app_icon_dir_no_trailing_sep.
    + by apply icon_path_parent.
    + apply (lookup_written_icon env (files wa) _ Hin).
  - by rewrite dom_write_icons, Hfiles.
  - by rewrite Hout.
Qed.

Lemma main_writes_seven_icons_witness :
  main bare_env out_world = (Ok tt, snd (main bare_env out_world)) /\
  length icon_sizes = 7%nat /\
  icon_sizes.*1 = [16; 32; 64; 128; 256; 512; 1024] /\
  app_icon_dir bare_env =
    os_path_join (os_path_dirname (script_abspath bare_env))
      [ ".."; "Orchard"; "Assets.xcassets"; "AppIcon.appiconset" ]%string /\
  (forall size filename,
     (size, filename) ∈ icon_sizes ->
     filename = "icon_" +:+ pretty size +:+ "x" +:+ pretty size +:+ ".png" /\
     os_path_join (app_icon_dir bare_env) [filename]
       = app_icon_dir bare_env +:+ "/" +:+ filename /\
     os_path_dirname (os_path_join (app_icon_dir bare_env) [filename])
       = app_icon_dir bare_env /\
     exists img,
       files (snd (main bare_env out_world))
         !! os_path_join (app_icon_dir bare_env) [filename] = Some img /\
       im_size img = (size, size)) /\
  dom (files (snd (main bare_env out_world))) =
    dom (files out_world)
    ∪ list_to_set ((fun spec => os_path_join (app_icon_dir bare_env) [spec.2])
                     <$> icon_sizes) /\
  stdout (snd (main bare_env out_world)) =
    stdout out_world ++ banner bare_env
    ++ map (fun spec =>
              created_line spec.1
                (os_path_join (app_icon_dir bare_env) [spec.2]))
         icon_sizes
    ++ closing.
Proof.
  split; [vm_compute; reflexivity|].
  apply (main_writes_seven_icons bare_env out_world). vm_compute; reflexivity.
Defined.

Example app_icon_dir_of_repo :
  app_icon_dir bare_env
    = "/repo/scripts/../Orchard/Assets.xcassets/AppIcon.appiconset"%string.
Proof. reflexivity. Qed.

(** * Further properties of [create_placeholder_icon] *)

Section OneIcon.

Variable env : Env.

Lemma load_font_result_cases size :
  (exists font, load_font_result env size = Ok font) \/
  (exists p e,
     find (font_exists env) font_paths = Some p /\
     truetype_raises env p (font_size_of size) = Some e /\
     absorbed e = false /\
     load_font_result env size = Raise e).
Proof.
  unfold load_font_result.
  destruct (find _ _) as [p|]; [|by left; eexists].
  destruct (truetype_raises _ _ _) as [e|] eqn:He; [|by left; eexists].
  destruct (absorbed e) eqn:Ha; rewrite absorbed_eq in Ha; rewrite Ha.
  - left. by eexists.
  - right. exists p, e. by rewrite absorbed_eq.
Qed.

(** Every outcome of a call, from the installation and the output tree. *)
Lemma create_placeholder_icon_outcome size output_path w :
  create_placeholder_icon env size output_path w =
    match load_font_result env size with
    | Ok font =>
        if bool_decide (output_path ∈ dirs w) then (Raise IsADirectoryError, w)
        else if bool_decide (os_path_dirname output_path ∈ dirs w) then
          (Ok tt,
           mkWorld (dirs w) (<[output_path := icon_image env size font]> (files w))
             (stdout w ++ [created_line size output_path]))
        else (Raise FileNotFoundError, w)
    | Raise e => (Raise e, w)
    | SysExit code => (SysExit code, w)
    end.
Proof.
  rewrite create_placeholder_icon_eq. unfold bind. rewrite load_font_eq.
  destruct (load_font_result env size); [|done..].
  unfold img_save, print. by repeat case_bool_decide.
Qed.

(** X1. A call that returns normally has changed one thing in the output
    tree, the file at [output_path], which now holds an RGBA image of
    [size] by [size] pixels on the blue background with three drawing
    calls on it; every other file and every directory is as before, and
    exactly one line was printed. *)
Theorem create_placeholder_icon_frame size output_path w w' :
  create_placeholder_icon env size output_path w = (Ok tt, w') ->
  dirs w' = dirs w /\
  (forall p, p <> output_path -> files w' !! p = files w !! p) /\
  stdout w' = stdout w ++ [created_line size output_path] /\
  exists img,
    files w' !! output_path = Some img /\
    im_mode img = "RGBA"%string /\
    im_size img = (size, size) /\
    im_fill img = (52, 120, 246, 255) /\
    length (im_ops img) = 3%nat.
Proof.
  intros (font & _ & _ & _ & ->)%create_placeholder_icon_ok. cbn.
  split; [done|]. split; [|split; [done|]].
  - intros p Hp. by rewrite lookup_insert_ne.
  - eexists. split; [apply lookup_insert_eq|]. done.
Qed.


End OneIcon.

Lemma create_placeholder_icon_frame_witness :
  create_placeholder_icon mac_env 512 "/out/icon_512x512.png" out_world
    = (Ok tt, snd (create_placeholder_icon mac_env 512 "/out/icon_512x512.png"
                     out_world)) /\
  dirs (snd (create_placeholder_icon mac_env 512 "/out/icon_512x512.png"
               out_world)) = dirs out_world /\
  (forall p, p <> "/out/icon_512x512.png"%string ->
     files (snd (create_placeholder_icon mac_env 512 "/out/icon_512x512.png"
                   out_world)) !! p = files out_world !! p) /\
  stdout (snd (create_placeholder_icon mac_env 512 "/out/icon_512x512.png"
                 out_world))
    = stdout out_world ++ [created_line 512 "/out/icon_512x512.png"] /\
  exists img,
    files (snd (create_placeholder_icon mac_env 512 "/out/icon_512x512.png"
                  out_world)) !! "/out/icon_512x512.png"%string = Some img /\
    im_mode img = "RGBA"%string /\
    im_size img = (512, 512) /\
    im_fill img = (52, 120, 246, 255) /\
    length (im_ops img) = 3%nat.
Proof.
  split; [vm_compute; reflexivity|].
  apply (create_placeholder_icon_frame mac_env 512 "/out/icon_512x512.png"
           out_world).
  vm_compute; reflexivity.
Defined.


(** * Sizes and positions *)

Lemma div_bounds n d : 0 < d -> d * (n // d) <= n < d * (n // d) + d.
Proof.
  intros Hd. pose proof (Z.div_mod n d ltac:(lia)).
  pose proof (Z.mod_pos_bound n d Hd). lia.
Qed.

(** X3. The font size asked of [ImageFont.truetype] is positive exactly
    for icons of 4 pixels and more (below that it is 0 or negative), and
    for every icon size that is not negative it lies between an eighth and
    a quarter of the icon size. *)
Theorem font_size_bounds size :
  (0 < font_size_of size <-> 4 <= size) /\
  (0 <= size -> size // 8 <= font_size_of size <= size // 4).
Proof.
  unfold font_size_of.
  pose proof (div_bounds size 8 ltac:(lia)).
  pose proof (div_bounds size 6 ltac:(lia)).
  pose proof (div_bounds size 4 ltac:(lia)).
  destruct (Z.geb_spec size 128); [lia|].
  destruct (Z.geb_spec size 64); lia.
Qed.

Section Position.

Variable env : Env.

(** X4. Where the glyphs land, for every size and font: the left margin
    exceeds the right margin by twice the left edge of the measured box,
    less at most one pixel, and the top margin exceeds the bottom margin
    by twice its top edge, less at most one pixel. *)
Theorem ink_margins size font :
  let g := getbbox env (label_text size) font in
  let b := ink_box env size font in
  2 * box_left g - 1 <= box_left b - (size - box_right b) <= 2 * box_left g /\
  2 * box_top g - 1 <= box_top b - (size - box_bottom b) <= 2 * box_top g.
Proof.
  cbn zeta. unfold ink_box, text_x, text_y, textbbox.
  cbn [box_left box_right box_top box_bottom fst snd].
  set (g := getbbox env (label_text size) font).
  rewrite !Z.add_0_r.
  pose proof (div_bounds (size - (box_right g - box_left g)) 2 ltac:(lia)).
  pose proof (div_bounds (size - (box_bottom g - box_top g)) 2 ltac:(lia)).
  lia.
Qed.

(** X5. When the measured label is no wider and no taller than the
    canvas, the drawing position is on the canvas and a box of the
    measured width and height placed there stays on it. *)
Theorem measured_box_inside_canvas size font :
  let bbox := textbbox env (0, 0) (label_text size) font in
  let width := box_right bbox - box_left bbox in
  let height := box_bottom bbox - box_top bbox in
  width <= size -> height <= size ->
  0 <= text_x env size font /\ text_x env size font + width <= size /\
  0 <= text_y env size font /\ text_y env size font + height <= size.
Proof.
  cbn zeta. unfold text_x, text_y.
  set (b := textbbox env (0, 0) (label_text size) font).
  intros Hw Hh.
  pose proof (div_bounds (size - (box_right b - box_left b)) 2 ltac:(lia)).
  pose proof (div_bounds (size - (box_bottom b - box_top b)) 2 ltac:(lia)).
  lia.
Qed.

End Position.

Lemma measured_box_inside_canvas_witness :
  box_right (textbbox mac_env (0, 0) (label_text 128) (TrueType helvetica 16))
  - box_left (textbbox mac_env (0, 0) (label_text 128) (TrueType helvetica 16))
    <= 128 /\
  box_bottom (textbbox mac_env (0, 0) (label_text 128) (TrueType helvetica 16))
  - box_top (textbbox mac_env (0, 0) (label_text 128) (TrueType helvetica 16))
    <= 128 /\
  0 <= text_x mac_env 128 (TrueType helvetica 16) /\
  text_x mac_env 128 (TrueType helvetica 16)
  + (box_right (textbbox mac_env (0, 0) (label_text 128) (TrueType helvetica 16))
     - box_left (textbbox mac_env (0, 0) (label_text 128)
                   (TrueType helvetica 16))) <= 128 /\
  0 <= text_y mac_env 128 (TrueType helvetica 16) /\
  text_y mac_env 128 (TrueType helvetica 16)
  + (box_bottom (textbbox mac_env (0, 0) (label_text 128) (TrueType helvetica 16))
     - box_top (textbbox mac_env (0, 0) (label_text 128)
                  (TrueType helvetica 16))) <= 128.
Proof.
  split; [vm_compute; discriminate|]. split; [vm_compute; discriminate|].
  apply (measured_box_inside_canvas mac_env 128 (TrueType helvetica 16));
    vm_compute; discriminate.
Defined.

(** * Further properties of [main] *)

Section MainOutcome.

Variable env : Env.

(** The world after the icons of [specs] were written. *)
Definition after_icons (specs : list (Z * string)) (w : World) : World :=
  mkWorld (dirs w) (write_icons env specs (files w))
    (stdout w ++ created_lines env specs).

Lemma icon_step_cases spec w :
  (can_write env (dirs w) spec /\
   icon_step env spec w = (Ok tt, after_icons [spec] w)) \/
  (~ can_write env (dirs w) spec /\
   exists e, icon_step env spec w = (Raise e, w)).
Proof.
  destruct (icon_step env spec w) as [[[]|e|code] w1] eqn:Hstep.
  - left. by apply icon_step_ok in Hstep as [Hcan ->].
  - right. assert (w1 = w) as ->.
    { destruct spec as [size filename]. cbn in Hstep.
      rewrite create_placeholder_icon_outcome in Hstep.
      destruct (load_font_result env size); repeat case_bool_decide;
        congruence. }
    split; [|by exists e]. intros Hcan.
    pose proof (proj2 (icon_step_ok env spec w _) (conj Hcan eq_refl)).
    congruence.
  - exfalso. destruct spec as [size filename]. cbn in Hstep.
    rewrite create_placeholder_icon_outcome in Hstep.
    destruct (load_font_result_cases env size)
      as [[font Hf]|(p & e & _ & _ & _ & Hf)]; rewrite Hf in Hstep;
      repeat case_bool_decide; discriminate.
Qed.

Lemma after_icons_cons spec specs w :
  after_icons specs (after_icons [spec] w) = after_icons (spec :: specs) w.
Proof.
  unfold after_icons. cbn [dirs files stdout]. f_equal.
  unfold created_lines. cbn [map]. by rewrite <- app_assoc.
Qed.

Lemma for_each_cons {A} (x : A) xs body w :
  for_each (x :: xs) body w =
    match body x w with
    | (Ok _, w1) => for_each xs body w1
    | (Raise e, w1) => (Raise e, w1)
    | (SysExit code, w1) => (SysExit code, w1)
    end.
Proof. reflexivity. Qed.

(** The loop either writes every icon, or stops at the first one it
    cannot write, keeping what it wrote before. *)
Lemma for_each_icon_step_cases specs : forall w,
  (Forall (can_write env (dirs w)) specs /\
   for_each specs (icon_step env) w = (Ok tt, after_icons specs w)) \/
  (exists written failing rest e,
     specs = written ++ failing :: rest /\
     Forall (can_write env (dirs w)) written /\
     ~ can_write env (dirs w) failing /\
     icon_step env failing (after_icons written w)
       = (Raise e, after_icons written w) /\
     for_each specs (icon_step env) w = (Raise e, after_icons written w)).
Proof.
  induction specs as [|spec specs IH]; intros w.
  - left. split; [constructor|]. cbn. unfold after_icons, created_lines. cbn.
    rewrite app_nil_r. by destruct w.
  - rewrite !for_each_cons.
    destruct (icon_step_cases spec w) as [[Hcan ->]|[Hcan [e He]]].
    + destruct (IH (after_icons [spec] w))
        as [[Hall ->]|(written & failing & rest & e & -> & Hall & Hfail & Hstep & ->)].
      * left. rewrite after_icons_cons. split; [by constructor|done].
      * right. exists (spec :: written), failing, rest, e.
        rewrite after_icons_cons in Hstep. rewrite after_icons_cons.
        split; [done|]. split; [by constructor|].
        split; [exact Hfail|]. split; [exact Hstep|done].
    + right. rewrite He. exists [], spec, specs, e.
      assert (after_icons [] w = w) as ->.
      { unfold after_icons, created_lines. cbn. rewrite app_nil_r.
        by destruct w. }
      split; [done|]. split; [constructor|].
      split; [exact Hcan|]. by split.
Qed.

Lemma os_makedirs_cases name w :
  (exists e, os_makedirs name true w = (Raise e, w)) \/
  (exists wa,
     os_makedirs name true w = (Ok tt, wa) /\
     name ∈ dirs wa /\ dirs w ⊆ dirs wa /\
     files wa = files w /\ stdout wa = stdout w).
Proof.
  unfold os_makedirs. repeat case_bool_decide.
  - right. by exists w.
  - left. by eexists.
  - destruct (existsb _ _); [left; by eexists|].
    right. eexists. split; [done|]. cbn. repeat split; try done.
    + apply elem_of_union_r. by apply elem_of_singleton.
    + intros x Hx. by do 2 apply elem_of_union_l.
Qed.

Definition say (lines : list string) (w : World) : World :=
  mkWorld (dirs w) (files w) (stdout w ++ lines).

(** [main] once the guard of lines 92-97 has passed. *)
Lemma main_with_pillow w :
  pil_installed env = true ->
  main env w =
    match os_makedirs (app_icon_dir env) true w with
    | (Ok _, wa) =>
        match for_each icon_sizes (icon_step env) (say (banner env) wa) with
        | (Ok _, wc) => (Ok tt, say closing wc)
        | (Raise e, wc) => (Raise e, wc)
        | (SysExit code, wc) => (SysExit code, wc)
        end
    | (Raise e, w1) => (Raise e, w1)
    | (SysExit code, w1) => (SysExit code, w1)
    end.
Proof.
  intros Hpil. unfold main. unfold bind at 1, try_except, import_PIL.
  rewrite Hpil. unfold bind at 1.
  destruct (os_makedirs (app_icon_dir env) true w) as [[[]|e|code] wa];
    [|done..].
  rewrite !bind_print. cbn [dirs files stdout]. unfold bind at 1.
  change (for_each icon_sizes _) with (for_each icon_sizes (icon_step env)).
  rewrite <- !app_assoc. cbn [app].
  change (mkWorld (dirs wa) (files wa) (stdout wa ++ _))
    with (say (banner env) wa).
  destruct (for_each icon_sizes (icon_step env) (say (banner env) wa))
    as [[[]|e|code] wc]; [|done..].
  rewrite !bind_print. unfold print, say. cbn [dirs files stdout].
  by rewrite <- !app_assoc.
Qed.

(** Every run of [main] with Pillow there. *)
Lemma main_with_pillow_cases w :
  pil_installed env = true ->
  (exists e,
     os_makedirs (app_icon_dir env) true w = (Raise e, w) /\
     main env w = (Raise e, w)) \/
  (exists wa,
     os_makedirs (app_icon_dir env) true w = (Ok tt, wa) /\
     app_icon_dir env ∈ dirs wa /\ dirs w ⊆ dirs wa /\
     files wa = files w /\ stdout wa = stdout w /\
     ((Forall (can_write env (dirs wa)) icon_sizes /\
       main env w =
         (Ok tt, say closing (after_icons icon_sizes (say (banner env) wa)))) \/
      (exists written failing rest e,
         icon_sizes = written ++ failing :: rest /\
         Forall (can_write env (dirs wa)) written /\
         ~ can_write env (dirs wa) failing /\
         icon_step env failing (after_icons written (say (banner env) wa))
           = (Raise e, after_icons written (say (banner env) wa)) /\
         main env w =
           (Raise e, after_icons written (say (banner env) wa))))).
Proof.
  intros Hpil. rewrite !main_with_pillow by done.
  destruct (os_makedirs_cases (app_icon_dir env) w)
    as [[e Hmk]|(wa & Hmk & Hin & Hsub & Hfiles & Hout)]; rewrite Hmk.
  { left. by exists e. }
  right. exists wa. do 5 (split; [done|]).
  destruct (for_each_icon_step_cases icon_sizes (say (banner env) wa))
    as [[Hall ->]|(written & failing & rest & e & Hsplit & Hall & Hfail
                   & Hstep & ->)].
  - by left.
  - right. by exists written, failing, rest, e.
Qed.

End MainOutcome.

Section MainExtras.

Variable env : Env.

Lemma elem_of_created_lines line specs :
  line ∈ created_lines env specs -> exists rest, line = "Created " +:+ rest.
Proof.
  unfold created_lines. intros (spec & <- & _)%list_elem_of_In%in_map_iff.
  unfold created_line. by eexists.
Qed.

Lemma elem_of_banner line :
  line ∈ banner env ->
  line = "Generating placeholder app icons for Orchard..."%string \/
  (exists rest, line = "Output directory: " +:+ rest) \/
  line = ""%string.
Proof.
  unfold banner. intros H.
  apply elem_of_cons in H as [->|H]; [by left|].
  apply elem_of_cons in H as [->|H]; [right; left; by eexists|].
  apply elem_of_cons in H as [->|H]; [by right; right|].
  by apply elem_of_nil in H.
Qed.


(** X7. [main] prints the line that reports success exactly when it
    returns normally, that is, when all seven icons were written. *)
Theorem success_line_iff_returns w :
  exists new,
    stdout (snd (main env w)) = stdout w ++ new /\
    ("✅ Placeholder icons generated successfully!"%string ∈ new
     <-> fst (main env w) = Ok tt).
Proof.
  destruct (pil_installed env) eqn:Hpil.
  2:{ rewrite main_guard by done. eexists. split; [done|]. cbn. split; [|done].
      intros H. repeat (apply elem_of_cons in H as [H|H]; [discriminate|]).
      by apply elem_of_nil in H. }
  destruct (main_with_pillow_cases env w Hpil)
    as [(e' & Hmk & ->)|(wa & _ & _ & _ & Hfiles & Hout &
         [[_ ->]|(written & failing & rest & e' & _ & _ & _ & _ & ->)])].
  - exists []. cbn. rewrite app_nil_r. split; [done|]. split; [|done].
    intros H. by apply elem_of_nil in H.
  - exists (banner env ++ created_lines env icon_sizes ++ closing).
    cbn [after_icons say files stdout dirs fst snd].
    rewrite Hout, <- !app_assoc. split; [done|]. split; [done|]. intros _.
    do 2 apply elem_of_app, or_intror. unfold closing. right. left.
  - exists (banner env ++ created_lines env written).
    cbn [after_icons say files stdout dirs fst snd].
    rewrite Hout, <- !app_assoc. split; [done|]. split; [|done].
    intros [H|H]%elem_of_app.
    + apply elem_of_banner in H as [H|[[? H]|H]]; discriminate.
    + apply elem_of_created_lines in H as [? H]. discriminate.
Qed.


(** X9. Each icon a run of [main] leaves behind is the image a direct
    call of [create_placeholder_icon] with that size saves, whatever the
    output tree that call starts from. *)
Theorem main_icons_are_standalone w w' spec output_path v v' :
  main env w = (Ok tt, w') ->
  spec ∈ icon_sizes ->
  create_placeholder_icon env spec.1 output_path v = (Ok tt, v') ->
  files w' !! icon_path env spec = files v' !! output_path.
Proof.
  intros (_ & wa & _ & _ & ->)%main_ok Hin
         (font & Hfont & _ & _ & ->)%create_placeholder_icon_ok.
  cbn [files]. rewrite lookup_insert_eq, lookup_write_icons.
  destruct (find _ _) as [spec'|] eqn:Hfind.
  - apply find_some in Hfind as [Hin' Hp%bool_decide_eq_true_1].
    apply list_elem_of_In, elem_of_reverse in Hin'.
    unfold the_icon, the_font.
    by rewrite (icon_path_inj env spec' spec), Hfont.
  - exfalso. eapply find_none in Hfind.
    + by apply bool_decide_eq_false_1 in Hfind.
    + by apply list_elem_of_In, elem_of_reverse.
Qed.

(** X10. Called without Pillow, [main] itself prints the two lines of
    its guard and ends in [sys.exit(1)] before it touches the output
    tree. *)
Theorem main_alone_without_pillow w :
  pil_installed env = false ->
  fst (main env w) = SysExit 1 /\
  exit_status (fst (main env w)) = 1 /\
  dirs (snd (main env w)) = dirs w /\
  files (snd (main env w)) = files w /\
  stdout (snd (main env w)) =
    stdout w ++ [ "Error: Pillow library is required.";
                  "Install it with: pip install Pillow" ]%string.
Proof. intros Hpil. by rewrite main_guard. Qed.

(** X11. The script never ends in [sys.exit] and never prints the two
    lines of the guard of [main], Pillow or no Pillow. *)
Theorem script_never_reaches_guard w :
  (forall code, fst (script env w) <> SysExit code) /\
  exists new,
    stdout (snd (script env w)) = stdout w ++ new /\
    ("Error: Pillow library is required."%string ∉ new) /\
    ("Install it with: pip install Pillow"%string ∉ new).
Proof.
  rewrite script_eq. destruct (pil_installed env) eqn:Hpil.
  2:{ split; [done|]. exists []. cbn. rewrite app_nil_r.
      split; [done|]. split; apply not_elem_of_nil. }
  assert (forall line,
            line ∈ banner env ++ created_lines env icon_sizes ++ closing
            \/ (exists written, line ∈ banner env ++ created_lines env written) ->
            line <> "Error: Pillow library is required."%string /\
            line <> "Install it with: pip install Pillow"%string) as Hlines.
  { intros line [H|[written H]].
    - apply elem_of_app in H as [H|H];
        [apply elem_of_banner in H as [ -> | [[? -> ] | -> ]]; by split|].
      apply elem_of_app in H as [H|H];
        [apply elem_of_created_lines in H as [? ->]; by split|].
      unfold closing in H.
      repeat (apply elem_of_cons in H as [->|H]; [by split|]).
      by apply elem_of_nil in H.
    - apply elem_of_app in H as [H|H];
        [apply elem_of_banner in H as [ -> | [[? -> ] | -> ]]; by split|].
      apply elem_of_created_lines in H as [? ->]; by split. }
  destruct (main_with_pillow_cases env w Hpil)
    as [(e' & Hmk & ->)|(wa & _ & _ & _ & Hfiles & Hout &
         [[_ ->]|(written & failing & rest & e' & _ & _ & _ & _ & ->)])].
  - split; [done|]. exists []. cbn. rewrite app_nil_r.
    split; [done|]. split; apply not_elem_of_nil.
  - split; [done|].
    exists (banner env ++ created_lines env icon_sizes ++ closing).
    cbn [after_icons say files stdout dirs fst snd].
    rewrite Hout, <- !app_assoc. split; [done|].
    split; intros H; by destruct (Hlines _ (or_introl H)).
  - split; [done|]. exists (banner env ++ created_lines env written).
    cbn [after_icons say files stdout dirs fst snd].
    rewrite Hout, <- !app_assoc. split; [done|].
    split; intros H;
      by destruct (Hlines _ (or_intror (ex_intro _ written H))).
Qed.

End MainExtras.

(** * When [main] succeeds *)

Section Lengths.

Implicit Types a b s pre : string.


Lemma app_assoc_str a b c : (a +:+ b) +:+ c = a +:+ b +:+ c.
Proof.
  induction a as [|x a IH]; [reflexivity|].
  rewrite !(app_String x). by rewrite IH.
Qed.



End Lengths.

Section Success.

Variable env : Env.



(** X13. The icon directory is the directory name of the script followed
    by [../Orchard/Assets.xcassets/AppIcon.appiconset], with one separator
    in between unless the directory name is empty or ends in one: the
    [..] stays in the path as it is. *)
Theorem app_icon_dir_literal :
  let script_dir := os_path_dirname (script_abspath env) in
  app_icon_dir env =
    (if is_empty script_dir || ends_with_sep script_dir then script_dir
     else script_dir +:+ "/")
    +:+ "../Orchard/Assets.xcassets/AppIcon.appiconset".
Proof.
  cbn zeta. unfold app_icon_dir, os_path_join. cbn [fold_left].
  set (sd := os_path_dirname (script_abspath env)).
  set (pre := if is_empty sd || ends_with_sep sd then sd else sd +:+ "/").
  assert (join_step sd ".." = pre +:+ "..") as ->.
  { unfold join_step, pre.
    assert (starts_with_sep ".." = false) as -> by reflexivity.
    destruct (_ || _); [done|]. by rewrite app_assoc_str. }
  assert (forall a b c, is_empty b = false -> ends_with_sep b = false ->
            starts_with_sep c = false ->
            join_step (a +:+ b) c = a +:+ b +:+ "/" +:+ c) as Hstep.
  { intros a b c Hb He Hc. unfold join_step.
    rewrite Hc, is_empty_app, Hb, andb_false_r, ends_with_sep_app, He by done.
    cbn [orb]. by rewrite !app_assoc_str. }
  rewrite Hstep by done. rewrite Hstep by done. rewrite Hstep by done.
  reflexivity.
Qed.

End Success.


Section Count.

Variable env : Env.



End Count.

(** Font loading runs out of memory at font size 32, that is, for the
    256 pixel icon. *)
Definition flaky_env : Env :=
  demo_env true (fun p => bool_decide (p = helvetica))
    (fun _ s => if s =? 32 then Some MemoryError else None)
    (fun _ _ => (0, 0, 12, 11)).


Example main_stops_at_256 :
  stdout (snd (main flaky_env empty_world)) =
    banner flaky_env
    ++ created_lines flaky_env
         [ (16, "icon_16x16.png"); (32, "icon_32x32.png");
           (64, "icon_64x64.png"); (128, "icon_128x128.png") ]%string.
Proof. vm_compute. reflexivity. Qed.


Lemma main_icons_are_standalone_witness :
  main mac_env empty_world = (Ok tt, snd (main mac_env empty_world)) /\
  (1024, "icon_1024x1024.png"%string) ∈ icon_sizes /\
  create_placeholder_icon mac_env 1024 "/out/big.png" out_world
    = (Ok tt, snd (create_placeholder_icon mac_env 1024 "/out/big.png"
                     out_world)) /\
  files (snd (main mac_env empty_world))
    !! icon_path mac_env (1024, "icon_1024x1024.png"%string)
  = files (snd (create_placeholder_icon mac_env 1024 "/out/big.png" out_world))
      !! "/out/big.png"%string.
Proof.
  split; [vm_compute; reflexivity|].
  split; [unfold icon_sizes; do 6 right; left|].
  split; [vm_compute; reflexivity|].
  apply (main_icons_are_standalone mac_env empty_world _
           (1024, "icon_1024x1024.png"%string) "/out/big.png"%string out_world _).
  - vm_compute; reflexivity.
  - unfold icon_sizes; do 6 right; left.
  - vm_compute; reflexivity.
Defined.

Lemma main_alone_without_pillow_witness :
  pil_installed no_pillow_env = false /\
  fst (main no_pillow_env out_world) = SysExit 1 /\
  exit_status (fst (main no_pillow_env out_world)) = 1 /\
  dirs (snd (main no_pillow_env out_world)) = dirs out_world /\
  files (snd (main no_pillow_env out_world)) = files out_world /\
  stdout (snd (main no_pillow_env out_world)) =
    stdout out_world ++ [ "Error: Pillow library is required.";
                          "Install it with: pip install Pillow" ]%string.
Proof.
  split; [reflexivity|].
  apply (main_alone_without_pillow no_pillow_env out_world). reflexivity.
Defined.

